(** * MatchContributionDialog: amount range, raw-value filter and the
      selection / reconciliation state machine

    Source: components/dashboard/sections/transactions-imports/MatchContributionDialog.tsx

    Conventions of the embedding.
    - JavaScript numbers are idealised as exact rationals ([Q]); the amounts
      handled by the dialog are integers in cents ([Z]).  The few non-finite
      values that can flow through [getAmountRangeFilter] (the logarithm of a
      non-positive amount) are kept as explicit constructors.  The doubles of
      the source compute the same bounds as this exact arithmetic for amounts
      of up to fourteen digits; the facts that give the value of a bound are
      stated for those amounts only.
    - React state is an explicit record; every handler is a function on the
      "world" (component state, Apollo cache, log of outward effects).
    - A control can only be clicked when the render function produces it and
      it is not disabled. *)

From Stdlib Require Import ZArith QArith Qround Qpower Lia.
From stdpp Require Import gmap strings list.

Local Open Scope Z_scope.

(** ** Amount range estimator *)

Module AmountRange.

(** Results of [Math.floor (Math.log10 v)] and of its negation: an integer
    for a positive argument, an infinity for [0], [NaN] for a negative one. *)
Inductive JsInt : Type :=
| Finite (k : Z)
| PosInfinity
| NegInfinity
| NaN.

(** Integer part of the decimal logarithm: the number of times [v] can be
    divided by ten before it drops below ten. *)
Fixpoint ilog10_aux (fuel : nat) (v : Z) : Z :=
  match fuel with
  | O => 0
  | S fuel' => if v <? 10 then 0 else 1 + ilog10_aux fuel' (v / 10)
  end.

Definition ilog10 (v : Z) : Z := ilog10_aux (Z.to_nat (Z.log2 v)) v.

(** [Math.floor(Math.log10(v))] *)
Definition floor_log10 (v : Z) : JsInt :=
  if v <? 0 then NaN
  else if v =? 0 then NegInfinity
  else Finite (ilog10 v).

(** Unary minus. *)
Definition js_neg (n : JsInt) : JsInt :=
  match n with
  | Finite k => Finite (- k)
  | PosInfinity => NegInfinity
  | NegInfinity => PosInfinity
  | NaN => NaN
  end.

(** lodash: [MAX_INTEGER = 1.7976931348623157e+308], the largest double. *)
Definition MAX_INTEGER : Z := 2 ^ 1024 - 2 ^ 971.

(** lodash [toInteger]: infinities saturate at [MAX_INTEGER], [NaN] is [0]. *)
Definition toInteger (n : JsInt) : Z :=
  match n with
  | Finite k => k
  | PosInfinity => MAX_INTEGER
  | NegInfinity => - MAX_INTEGER
  | NaN => 0
  end.

(** lodash [createRound]:
    [precision = nativeMin(toInteger(precision), 292)]; when the precision is
    non-zero the number is shifted by [precision] decimal places, rounded with
    [func], and shifted back; otherwise [func] is applied directly. *)
Definition createRound (func : Q -> Z) (number : Q) (precision : JsInt) : Q :=
  let p := Z.min (toInteger precision) 292 in
  if p =? 0 then inject_Z (func number)
  else Qred (inject_Z (func (number * 10 ^ p)%Q) * 10 ^ (- p))%Q.

Definition floor : Q -> JsInt -> Q := createRound Qfloor.
Definition ceil : Q -> JsInt -> Q := createRound Qceiling.

Inductive AmountFilterType : Type := IS_EQUAL_TO | IS_BETWEEN | IS_GREATER_THAN | IS_LESS_THAN.

Record AmountFilter : Type := {
  type : AmountFilterType;
  gte : Q;
  lte : Q;
}.

Definition getAmountRangeFilter (valueInCents : Z) : AmountFilter :=
  let precision := js_neg (floor_log10 valueInCents) in
  {| type := IS_BETWEEN;
     gte := floor (inject_Z valueInCents * 0.8)%Q precision;
     lte := ceil (inject_Z valueInCents * 1.2)%Q precision |}.

End AmountRange.


(** ** Raw values of the imported row *)

Module RawValues.

(** Modelled from the spec: the [CSVConfig] type of [./lib/types] is not part
    of the sources.  Only what [filterRawValueEntries] reads is kept: the
    [credit], [debit] and [date] columns, each with the name of the CSV column
    it is read from ([target], absent when the column is not mapped).  The
    amount of a row is read from the credit and debit columns. *)
Record CSVColumn : Type := { target : option string }.

Record CSVColumns : Type := {
  credit : CSVColumn;
  debit : CSVColumn;
  date : CSVColumn;
}.

Record CSVConfig : Type := { columns : CSVColumns }.

(** lodash [isEmpty] on a string: it has no character. *)
Definition isEmpty (value : string) : bool :=
  match value with
  | EmptyString => true
  | String _ _ => false
  end.

(** [Array.prototype.includes] for an array of possibly undefined strings,
    searched for a string. *)
Definition includes (targets : list (option string)) (key : string) : bool :=
  existsb (fun t => bool_decide (t = Some key)) targets.

Definition filterRawValueEntries
    (entry : string * string) (csvConfig : option CSVConfig) : bool :=
  let '(key, value) := entry in
  (* Ignore empty values *)
  if isEmpty value then false
  else
    (* Ignore amount and date, since they're already parsed and displayed above *)
    match csvConfig with
    | Some config =>
        let columns := columns config in
        if includes [target (credit columns); target (debit columns); target (date columns)] key
        then false
        else true
    | None => true
    end.

(** [Object.entries(row.rawValue).filter(entry => filterRawValueEntries(entry, csvConfig))];
    [rawValue] is given as its list of entries. *)
Definition displayedRawValues
    (rawValue : list (string * string)) (csvConfig : option CSVConfig)
  : list (string * string) :=
  List.filter (fun entry => filterRawValueEntries entry csvConfig) rawValue.

End RawValues.

(** ** The dialog: state, cache, effects and handlers *)

Module Dialog.

(** Modelled from the spec: the [OrderStatus] enumeration of
    [lib/graphql/types/v2/graphql] is not part of the sources; the dialog only
    distinguishes [PENDING] from the other values. *)
Inductive OrderStatus : Type :=
| ACTIVE | CANCELLED | DISPUTED | ERROR | EXPIRED | IN_REVIEW | NEW | PAID
| PAUSED | PENDING | PROCESSING | REFUNDED | REJECTED | REQUIRE_CLIENT_CONFIRMATION.

#[global] Instance OrderStatus_eq_dec : EqDecision OrderStatus.
Proof. solve_decision. Defined.

(** A candidate contribution, as returned by the suggestions query. *)
Record Order : Type := {
  order_id : string;
  order_legacyId : Z;
  order_status : option OrderStatus;
}.

Record TransactionsImportRow : Type := {
  row_id : string;
  row_valueInCents : Z;
  row_date : string;
  row_rawValue : list (string * string);
}.

Record TransactionsImport : Type := {
  import_id : string;
  import_source : string;
  import_csvConfig : option RawValues.CSVConfig;
}.

(** [TransactionsImportStats]: the two counters the dialog increments and the
    remaining counters, which the spread [{...stats}] copies. *)
Record TransactionsImportStats : Type := {
  processed : Z;
  orders : Z;
  otherStats : list (string * Z);
}.

(** The normalised Apollo cache, restricted to what the dialog modifies: the
    [order] field of the cached rows and the [stats] field of the cached
    imports, each keyed by the identity of the entity. *)
Record Cache : Type := {
  rowOrder : gmap string (option Order);
  importStats : gmap string TransactionsImportStats;
}.

(** [cache.modify({id, fields: {order: f}})] on a row and
    [cache.modify({id, fields: {stats: f}})] on an import: the field is
    rewritten when the entity is cached, nothing happens otherwise. *)
Definition modifyRowOrder
    (id : string) (f : option Order -> option Order) (c : Cache) : Cache :=
  {| rowOrder := alter f id (rowOrder c); importStats := importStats c |}.

Definition modifyImportStats
    (id : string) (f : TransactionsImportStats -> TransactionsImportStats) (c : Cache) : Cache :=
  {| rowOrder := rowOrder c; importStats := alter f id (importStats c) |}.

(** Values that can be thrown inside the [try] block of the Save handler. *)
Inductive Exception : Type :=
| GraphqlException (message : string)
| TypeError (message : string).

Record RowUpdate : Type := {
  update_id : string;
  update_order_id : string;
}.

Inductive ToastVariant : Type := ToastError | ToastSuccess.

(** Outward effects of the dialog, in the order they happen.  [OnClose]
    records the cache as it is when the callback is invoked. *)
Inductive Effect : Type :=
| UpdateRows (importId : string) (rows : list RowUpdate)
| Toast (variant : ToastVariant) (message : string)
| OnClose (observed : Cache).

(** The three [React.useState] cells. *)
Record DialogState : Type := {
  selectedContribution : option Order;
  isConfirming : bool;
  isSubmitting : bool;
}.

Record World : Type := {
  ui : DialogState;
  cache : Cache;
  pendingUpdates : nat;       (* [updateRows] calls awaited and not yet settled *)
  effects : list Effect;
}.

Inductive Control : Type :=
| ConfirmContributionForm
| BackButton
| SubmitButton
| SuggestedContributionsTable
| CancelButton
| NextButton
| SaveButton.

#[global] Instance Control_eq_dec : EqDecision Control.
Proof. solve_decision. Defined.

Record Rendered : Type := {
  control : Control;
  disabled : bool;
}.

(** [!selectedContribution?.status || selectedContribution.status === OrderStatus.PENDING] *)
Definition statusUnsetOrPending (selected : option Order) : bool :=
  match selected with
  | None => true
  | Some order =>
      match order_status order with
      | None => true
      | Some status => bool_decide (status = PENDING)
      end
  end.

(** The controls of the returned element.  Modelled from the spec: the
    [Button] component of [components/ui/Button] is not part of the sources;
    a button that is [loading] does not react to clicks ("isSubmitting blocks
    duplicate submissions"). *)
Definition render (s : DialogState) : list Rendered :=
  if isConfirming s then
    [ {| control := ConfirmContributionForm; disabled := false |};
      {| control := BackButton; disabled := false |};
      {| control := SubmitButton; disabled := isSubmitting s |} ]
  else
    [ {| control := SuggestedContributionsTable; disabled := false |};
      {| control := CancelButton; disabled := false |};
      if statusUnsetOrPending (selectedContribution s)
      then {| control := NextButton;
              disabled := negb (bool_decide (is_Some (selectedContribution s))) |}
      else {| control := SaveButton; disabled := isSubmitting s |} ].

Definition rendered (s : DialogState) (c : Control) : option Rendered :=
  List.find (fun r => bool_decide (control r = c)) (render s).

Definition isRendered (s : DialogState) (c : Control) : bool :=
  bool_decide (is_Some (rendered s c)).

Definition isClickable (s : DialogState) (c : Control) : bool :=
  match rendered s c with
  | Some r => negb (disabled r)
  | None => false
  end.

Inductive Event : Type :=
| Click (c : Control)
| SetSelectedContribution (selected : option Order)   (* from the table *)
| FormOnSubmit                                        (* from the confirm form *)
| FormOnFailure
| FormOnSuccess
| UpdateRowsSettled (failure : option Exception)      (* the awaited mutation *)
| DialogOnOpenChange.

Section Handlers.

Variable row : TransactionsImportRow.
Variable transactionsImport : TransactionsImport.
(** [i18nGraphqlException(intl, error)] of [lib/errors], not part of the sources. *)
Variable i18nGraphqlException : Exception -> string.

Definition setSelectedContribution (v : option Order) (w : World) : World :=
  {| ui := {| selectedContribution := v;
              isConfirming := isConfirming (ui w);
              isSubmitting := isSubmitting (ui w) |};
     cache := cache w; pendingUpdates := pendingUpdates w; effects := effects w |}.

Definition setIsConfirming (v : bool) (w : World) : World :=
  {| ui := {| selectedContribution := selectedContribution (ui w);
              isConfirming := v;
              isSubmitting := isSubmitting (ui w) |};
     cache := cache w; pendingUpdates := pendingUpdates w; effects := effects w |}.

Definition setIsSubmitting (v : bool) (w : World) : World :=
  {| ui := {| selectedContribution := selectedContribution (ui w);
              isConfirming := isConfirming (ui w);
              isSubmitting := v |};
     cache := cache w; pendingUpdates := pendingUpdates w; effects := effects w |}.

Definition cacheModify (f : Cache -> Cache) (w : World) : World :=
  {| ui := ui w; cache := f (cache w);
     pendingUpdates := pendingUpdates w; effects := effects w |}.

Definition emit (e : Effect) (w : World) : World :=
  {| ui := ui w; cache := cache w;
     pendingUpdates := pendingUpdates w; effects := effects w ++ [e] |}.

Definition onClose (w : World) : World := emit (OnClose (cache w)) w.

Definition toast (variant : ToastVariant) (message : string) (w : World) : World :=
  emit (Toast variant message) w.

(** The [onSuccess] callback given to [ConfirmContributionForm]. *)
Definition onSuccess (w : World) : World :=
  let selected := selectedContribution (ui w) in
  (* Update row *)
  let w := cacheModify (modifyRowOrder (row_id row) (fun _ => selected)) w in
  (* Update transactions import stats *)
  let w :=
    cacheModify
      (modifyImportStats (import_id transactionsImport)
         (fun stats => {| processed := processed stats + 1;
                          orders := orders stats + 1;
                          otherStats := otherStats stats |})) w in
  (* Close modal *)
  onClose w.

(** What runs after the [await] of the Save handler: [catch] when the
    mutation was rejected, then [finally]. *)
Definition saveSettled (failure : option Exception) (w : World) : World :=
  let w :=
    match failure with
    | Some error => toast ToastError (i18nGraphqlException error) w
    | None => w
    end in
  onClose w.

(** The Save handler up to its [await].  Reading [selectedContribution.id]
    with nothing selected throws inside the [try] block, which goes straight
    to [catch] and [finally]. *)
Definition saveOnClick (w : World) : World :=
  let w := setIsSubmitting true w in
  match selectedContribution (ui w) with
  | Some order =>
      let w :=
        emit (UpdateRows (import_id transactionsImport)
                [ {| update_id := row_id row; update_order_id := order_id order |} ]) w in
      {| ui := ui w; cache := cache w;
         pendingUpdates := S (pendingUpdates w); effects := effects w |}
  | None =>
      saveSettled (Some (TypeError "Cannot read properties of null (reading 'id')")) w
  end.

Definition onClick (c : Control) (w : World) : World :=
  match c with
  | CancelButton => onClose w
  | NextButton => setIsConfirming true w
  | BackButton => setIsConfirming false w
  | SaveButton => saveOnClick w
  | SubmitButton => w            (* handled inside ConfirmContributionForm *)
  | ConfirmContributionForm => w
  | SuggestedContributionsTable => w
  end.

(** An event can happen when the component it comes from is on screen (and,
    for a click, enabled), and a settlement when a mutation is awaited. *)
Definition enabled (w : World) (e : Event) : bool :=
  match e with
  | Click c => isClickable (ui w) c
  | SetSelectedContribution _ => isRendered (ui w) SuggestedContributionsTable
  | FormOnSubmit | FormOnFailure | FormOnSuccess =>
      isRendered (ui w) ConfirmContributionForm
  | UpdateRowsSettled _ => bool_decide (pendingUpdates w <> O)
  | DialogOnOpenChange => true
  end.

Definition handle (e : Event) (w : World) : World :=
  match e with
  | Click c => onClick c w
  | SetSelectedContribution selected => setSelectedContribution selected w
  | FormOnSubmit => setIsSubmitting true w
  | FormOnFailure => setIsSubmitting false w
  | FormOnSuccess => onSuccess w
  | UpdateRowsSettled failure =>
      saveSettled failure
        {| ui := ui w; cache := cache w;
           pendingUpdates := Nat.pred (pendingUpdates w); effects := effects w |}
  | DialogOnOpenChange => onClose w
  end.

Definition step (w : World) (e : Event) : World :=
  if enabled w e then handle e w else w.

Definition run (w : World) (events : list Event) : World :=
  fold_left step events w.

(** The dialog when it is mounted: the initial values of the three
    [useState] cells, over any cache. *)
Definition initialWorld (c : Cache) : World :=
  {| ui := {| selectedContribution := None; isConfirming := false; isSubmitting := false |};
     cache := c; pendingUpdates := O; effects := [] |}.

Inductive reachable : World -> Prop :=
| reachable_initial (c : Cache) : reachable (initialWorld c)
| reachable_step (w : World) (e : Event) : reachable w -> reachable (step w e).

(** The events that commit the reconciliation: submitting the confirmation
    form (and its completion), and the direct-link Save. *)
Definition isCommit (e : Event) : bool :=
  match e with
  | Click SubmitButton | Click SaveButton | FormOnSubmit | FormOnSuccess => true
  | _ => false
  end.

End Handlers.

End Dialog.

(** ** Sample data, used to run the definitions on concrete inputs *)

Module Samples.
Import RawValues Dialog.

Definition csvConfig : CSVConfig :=
  {| columns := {| credit := {| target := Some "Credit" |};
                   debit := {| target := Some "Debit" |};
                   date := {| target := Some "Booking date" |} |} |}.

Definition rawValue : list (string * string) :=
  [ ("Booking date", "2024-03-01"); ("Credit", "1234.56"); ("Debit", "");
    ("Description", "Invoice 42"); ("Reference", "") ].

Definition row : TransactionsImportRow :=
  {| row_id := "row-1"; row_valueInCents := 123456;
     row_date := "2024-03-01T00:00:00.000Z"; row_rawValue := rawValue |}.

Definition transactionsImport : TransactionsImport :=
  {| import_id := "import-1"; import_source := "Bank"; import_csvConfig := Some csvConfig |}.

Definition i18nGraphqlException (error : Exception) : string :=
  match error with
  | GraphqlException message => message
  | TypeError message => message
  end.

Definition pendingOrder : Order :=
  {| order_id := "order-7"; order_legacyId := 7; order_status := Some PENDING |}.

Definition paidOrder : Order :=
  {| order_id := "order-9"; order_legacyId := 9; order_status := Some PAID |}.

Definition stats : TransactionsImportStats :=
  {| processed := 3; orders := 1; otherStats := [("total", 10); ("ignored", 2)] |}.

Definition cache : Cache :=
  {| rowOrder := {[ "row-1" := None ]}; importStats := {[ "import-1" := stats ]} |}.

Definition step : World -> Event -> World :=
  Dialog.step row transactionsImport i18nGraphqlException.

(** A pending contribution is selected and Next was clicked. *)
Definition confirming : World :=
  step (step (initialWorld cache) (SetSelectedContribution (Some pendingOrder)))
       (Click NextButton).

(** A paid contribution is selected. *)
Definition paidSelected : World :=
  step (initialWorld cache) (SetSelectedContribution (Some paidOrder)).

End Samples.

(** ** Values handed to the confirmation form and to the date filter *)

Module ImportedData.
Import Stdlib.Strings.Ascii Dialog.

(** [s.split(sep)[0]] for a separator of one character: the characters of [s]
    before the first occurrence of the separator, all of [s] when it has
    none. *)
Fixpoint splitHead (sep : Ascii.ascii) (s : string) : string :=
  match s with
  | EmptyString => EmptyString
  | String c rest =>
      if Ascii.eqb c sep then EmptyString else String c (splitHead sep rest)
  end.

Record ConfirmContributionValues : Type := {
  amountReceived : Z;
  processedAt : string;
  transactionsImportRow : TransactionsImportRow;
}.

(** The [initialValues] of the confirmation form. *)
Definition initialValues (row : TransactionsImportRow) : ConfirmContributionValues :=
  {| amountReceived := row_valueInCents row;
     processedAt := splitHead "T"%char (row_date row);
     transactionsImportRow := row |}.

(** The [lte] of the date filter set by the "Search date" button. *)
Definition searchDateLte (row : TransactionsImportRow) : string :=
  splitHead "T"%char (row_date row).

End ImportedData.

(** ** More sample data *)

Module MoreSamples.
Import RawValues Dialog.

(** A configuration in which no column is mapped. *)
Definition unmappedConfig : CSVConfig :=
  {| columns := {| credit := {| target := None |};
                   debit := {| target := None |};
                   date := {| target := None |} |} |}.

Definition networkError : Exception := GraphqlException "Network error".

(** Save was clicked on the paid contribution; the request is in flight. *)
Definition saving : World := Samples.step Samples.paidSelected (Click SaveButton).

Definition run : World -> list Event -> World :=
  Dialog.run Samples.row Samples.transactionsImport Samples.i18nGraphqlException.

End MoreSamples.

(** ** Facts about the amount range estimator *)

Section AmountRangeFacts.
Import AmountRange.
Local Open Scope Q_scope.

Lemma ten_power_pos (p : Z) : 0 < 10 ^ p.
Proof. apply Qpower_0_lt. reflexivity. Qed.

Lemma shift_back (x : Q) (p : Z) : x * 10 ^ p * 10 ^ (- p) == x.
Proof.
  rewrite Qpower_opp, <- Qmult_assoc, Qmult_inv_r, Qmult_1_r; [reflexivity|].
  intros E. pose proof (ten_power_pos p) as H. rewrite E in H. discriminate H.
Qed.

Lemma createRound_floor_le (x : Q) (p : JsInt) : floor x p <= x.
Proof.
  unfold floor, createRound. destruct (_ =? _)%Z.
  - apply Qfloor_le.
  - rewrite Qred_correct. set (k := Z.min _ _).
    rewrite <- (shift_back x k) at 2.
    apply Qmult_le_compat_r; [apply Qfloor_le | apply Qlt_le_weak, ten_power_pos].
Qed.

Lemma createRound_le_ceil (x : Q) (p : JsInt) : x <= ceil x p.
Proof.
  unfold ceil, createRound. destruct (_ =? _)%Z.
  - apply Qle_ceiling.
  - rewrite Qred_correct. set (k := Z.min _ _).
    rewrite <- (shift_back x k) at 1.
    apply Qmult_le_compat_r; [apply Qle_ceiling | apply Qlt_le_weak, ten_power_pos].
Qed.

Lemma Qfloor_nonneg (x : Q) : 0 <= x -> 0 <= inject_Z (Qfloor x).
Proof.
  intros H. change 0 with (inject_Z 0). rewrite <- Zle_Qle.
  change 0%Z with (Qfloor 0). now apply Qfloor_resp_le.
Qed.

Lemma createRound_floor_nonneg (x : Q) (p : JsInt) : 0 <= x -> 0 <= floor x p.
Proof.
  intros Hx. unfold floor, createRound. destruct (_ =? _)%Z.
  - now apply Qfloor_nonneg.
  - rewrite Qred_correct. set (k := Z.min _ _).
    apply Qmult_le_0_compat; [| apply Qlt_le_weak, ten_power_pos].
    apply Qfloor_nonneg, Qmult_le_0_compat; [exact Hx | apply Qlt_le_weak, ten_power_pos].
Qed.

(** The fuel given to [ilog10_aux] is enough: [ilog10 v] is the integer
    part of the decimal logarithm of a positive [v]. *)
Lemma ilog10_aux_spec (fuel : nat) (v : Z) :
  (0 < v < 2 ^ (Z.of_nat fuel + 1))%Z ->
  (0 <= ilog10_aux fuel v /\ 10 ^ ilog10_aux fuel v <= v < 10 ^ (ilog10_aux fuel v + 1))%Z.
Proof.
  revert v. induction fuel as [|fuel IH]; intros v Hv; cbn [ilog10_aux].
  - change (2 ^ (Z.of_nat 0 + 1))%Z with 2%Z in Hv. cbn. lia.
  - destruct (Z.ltb_spec v 10) as [Hlt|Hge]; [cbn; lia|].
    assert (0 < v / 10 < 2 ^ (Z.of_nat fuel + 1))%Z as Hq.
    { split; [apply Z.div_str_pos; lia|].
      apply Z.div_lt_upper_bound; [lia|].
      replace (Z.of_nat (S fuel) + 1)%Z with (Z.of_nat fuel + 1 + 1)%Z in Hv by lia.
      rewrite Z.pow_add_r in Hv by lia. change (2 ^ 1)%Z with 2%Z in Hv.
      assert (0 < 2 ^ (Z.of_nat fuel + 1))%Z by (apply Z.pow_pos_nonneg; lia). lia. }
    destruct (IH (v / 10)%Z Hq) as (H0 & Hlo & Hhi).
    set (k := ilog10_aux fuel (v / 10)) in *.
    split; [lia|].
    replace (1 + k + 1)%Z with (k + 1 + 1)%Z by lia.
    replace (1 + k)%Z with (k + 1)%Z by lia.
    rewrite (Z.pow_add_r 10 (k + 1) 1) by lia.
    rewrite (Z.pow_add_r 10 k 1) in * by lia.
    change (10 ^ 1)%Z with 10%Z in *.
    pose proof (Z.div_mod v 10 ltac:(lia)) as Hdm.
    pose proof (Z.mod_pos_bound v 10 ltac:(lia)) as Hmod.
    generalize dependent (10 ^ k)%Z. generalize dependent (v / 10)%Z.
    generalize dependent (v mod 10)%Z. intros. lia.
Qed.

Lemma ilog10_spec (v : Z) :
  (0 < v)%Z -> (10 ^ ilog10 v <= v < 10 ^ (ilog10 v + 1))%Z.
Proof.
  intros Hv. unfold ilog10.
  apply ilog10_aux_spec. split; [exact Hv|].
  rewrite Z2Nat.id by apply Z.log2_nonneg.
  replace (Z.log2 v + 1)%Z with (Z.succ (Z.log2 v)) by lia.
  now apply Z.log2_spec.
Qed.

(** C7. For every positive amount [v] (an integer number of cents) the range
    computed by [getAmountRangeFilter v] contains [v]: [gte <= v <= lte];
    and both bounds are non-negative. *)
Theorem getAmountRangeFilter_brackets_amount (v : Z) :
  (0 < v)%Z ->
  gte (getAmountRangeFilter v) <= inject_Z v /\
  inject_Z v <= lte (getAmountRangeFilter v) /\
  0 <= gte (getAmountRangeFilter v) /\
  0 <= lte (getAmountRangeFilter v).
Proof.
  intros Hv. cbn [getAmountRangeFilter gte lte].
  assert (0 <= inject_Z v) as Hq.
  { change 0 with (inject_Z 0). rewrite <- Zle_Qle. lia. }
  assert (inject_Z v * 0.8 <= inject_Z v) as Hlo.
  { unfold Qle; cbn. lia. }
  assert (inject_Z v <= inject_Z v * 1.2) as Hhi.
  { unfold Qle; cbn. lia. }
  repeat split.
  - eapply Qle_trans; [apply createRound_floor_le | exact Hlo].
  - eapply Qle_trans; [exact Hhi | apply createRound_le_ceil].
  - apply createRound_floor_nonneg, Qmult_le_0_compat; [exact Hq | discriminate].
  - eapply Qle_trans; [exact Hq|].
    eapply Qle_trans; [exact Hhi | apply createRound_le_ceil].
Qed.

End AmountRangeFacts.

(** ** Facts about the raw-value filter *)

Section RawValueFacts.
Import RawValues.

Lemma isEmpty_true (value : string) : isEmpty value = true <-> value = "".
Proof. destruct value; cbn; split; congruence. Qed.

Lemma includes_true (targets : list (option string)) (key : string) :
  includes targets key = true <-> In (Some key) targets.
Proof.
  unfold includes. rewrite existsb_exists. split.
  - intros (t & Hin & Ht). apply bool_decide_eq_true in Ht. now subst.
  - intros Hin. exists (Some key). split; [exact Hin | now apply bool_decide_eq_true].
Qed.

(** What the filter keeps, exactly. *)
Lemma filterRawValueEntries_true (key value : string) (csvConfig : option CSVConfig) :
  filterRawValueEntries (key, value) csvConfig = true <->
  value <> "" /\
  forall config, csvConfig = Some config ->
    ~ In (Some key)
        [target (credit (columns config)); target (debit (columns config));
         target (date (columns config))].
Proof.
  cbn [filterRawValueEntries].
  destruct (isEmpty value) eqn:Hempty.
  - apply isEmpty_true in Hempty. split; [discriminate | intros [Hne _]; contradiction].
  - assert (value <> "") as Hne by (intros E; apply isEmpty_true in E; congruence).
    destruct csvConfig as [config|].
    + destruct (includes _ key) eqn:Hinc.
      * apply includes_true in Hinc. split; [discriminate|].
        intros [_ H]. exfalso. exact (H config eq_refl Hinc).
      * split; [|reflexivity]. intros _. split; [exact Hne|].
        intros config' [= <-] Hin. apply includes_true in Hin. congruence.
    + split; [|reflexivity]. intros _. split; [exact Hne | discriminate].
Qed.

End RawValueFacts.

(** ** Facts about the dialog *)

Section DialogFacts.
Import Dialog.

Variable row : TransactionsImportRow.
Variable transactionsImport : TransactionsImport.
Variable i18nGraphqlException : Exception -> string.

Local Abbreviation step := (Dialog.step row transactionsImport i18nGraphqlException).
Local Abbreviation reachable := (Dialog.reachable row transactionsImport i18nGraphqlException).

Ltac open_world w :=
  destruct w as [[selected confirming submitting] store pending log].

Ltac unfold_dialog :=
  unfold Dialog.step, enabled, handle, onClick, isClickable, isRendered, rendered, render,
    saveOnClick, saveSettled, onSuccess, onClose, toast, emit, cacheModify,
    setIsConfirming, setIsSubmitting, setSelectedContribution in *;
  cbn in *.

(** How the confirmation step can be on screen after an event: it already
    was, or Next was clicked on a selected candidate whose status is unset
    or pending.  The selection is the same before and after. *)
Lemma step_confirming (w : World) (e : Event) :
  isConfirming (ui (step w e)) = true ->
  selectedContribution (ui (step w e)) = selectedContribution (ui w) /\
  (isConfirming (ui w) = true \/
   (e = Click NextButton /\
    is_Some (selectedContribution (ui w)) /\
    statusUnsetOrPending (selectedContribution (ui w)) = true)).
Proof.
  open_world w. intros H.
  destruct e as [c| sel | | | | failure |]; [destruct c| | | | | |];
    destruct confirming; unfold_dialog;
    repeat match goal with
      | |- context [statusUnsetOrPending ?s] => destruct (statusUnsetOrPending s) eqn:?; cbn in *
      | |- context [match ?s with Some _ => _ | None => _ end] => destruct s eqn:?; cbn in *
      | H : context [match ?s with Some _ => _ | None => _ end] |- _ => destruct s eqn:?; cbn in *
      | H : context [if ?b then _ else _] |- _ => destruct b eqn:?; cbn in *
      end;
    try discriminate; try (split; [reflexivity | left; reflexivity]).
  injection Heqo as <-. cbn in *.
  destruct selected; [split; [reflexivity | right; eauto] | discriminate].
Qed.

Lemma reachable_confirming (w : World) :
  reachable w ->
  isConfirming (ui w) = true ->
  is_Some (selectedContribution (ui w)) /\
  statusUnsetOrPending (selectedContribution (ui w)) = true.
Proof.
  induction 1 as [c | w e Hw IH]; [discriminate|].
  intros Hconf. destruct (step_confirming w e Hconf) as [-> [Hold | (_ & Hsel & Hst)]].
  - exact (IH Hold).
  - split; assumption.
Qed.

Lemma isRendered_NextButton (s : DialogState) :
  isRendered s NextButton = true <->
  isConfirming s = false /\ statusUnsetOrPending (selectedContribution s) = true.
Proof.
  destruct s as [selected confirming submitting].
  unfold isRendered, rendered, render; cbn.
  destruct confirming; cbn; [split; [discriminate | intros [? _]; discriminate]|].
  destruct (statusUnsetOrPending selected); cbn; split; try tauto; try discriminate.
  all: try (intros [_ ?]; discriminate).
Qed.

Lemma isRendered_SaveButton (s : DialogState) :
  isRendered s SaveButton = true <->
  isConfirming s = false /\ statusUnsetOrPending (selectedContribution s) = false.
Proof.
  destruct s as [selected confirming submitting].
  unfold isRendered, rendered, render; cbn.
  destruct confirming; cbn; [split; [discriminate | intros [? _]; discriminate]|].
  destruct (statusUnsetOrPending selected); cbn; split; try tauto; try discriminate.
  all: try (intros [_ ?]; discriminate).
Qed.

Lemma isRendered_ConfirmContributionForm (s : DialogState) :
  isRendered s ConfirmContributionForm = isConfirming s.
Proof.
  destruct s as [selected confirming submitting].
  unfold isRendered, rendered, render; cbn.
  destruct confirming; cbn; [reflexivity|].
  destruct (statusUnsetOrPending selected); reflexivity.
Qed.

Lemma isClickable_isRendered (s : DialogState) (c : Control) :
  isClickable s c = true -> isRendered s c = true.
Proof.
  unfold isClickable, isRendered. destruct (rendered s c); [reflexivity | discriminate].
Qed.

Lemma isClickable_SubmitButton (s : DialogState) :
  isClickable s SubmitButton = true -> isConfirming s = true.
Proof.
  destruct s as [selected confirming submitting].
  unfold isClickable, rendered, render; cbn.
  destruct confirming; cbn; [reflexivity|].
  destruct (statusUnsetOrPending selected); cbn; discriminate.
Qed.

Lemma statusUnsetOrPending_false (selected : option Order) :
  statusUnsetOrPending selected = false <->
  exists order status,
    selected = Some order /\ order_status order = Some status /\ status <> PENDING.
Proof.
  unfold statusUnsetOrPending. split.
  - destruct selected as [order|]; [|discriminate].
    destruct (order_status order) as [status|] eqn:E; [|discriminate].
    intros H. apply bool_decide_eq_false in H. eauto.
  - intros (order & status & -> & -> & Hne). now apply bool_decide_eq_false.
Qed.

(** C4. In every reachable state of the dialog, [isConfirming] implies that a
    contribution is selected; and an event that commits the reconciliation
    (submitting the confirmation form, its success callback, the direct-link
    Save) can only happen in a state where a contribution is selected. *)
Theorem confirming_and_commit_need_selection (w : World) :
  reachable w ->
  (isConfirming (ui w) = true -> is_Some (selectedContribution (ui w))) /\
  (forall e, isCommit e = true -> enabled w e = true ->
             is_Some (selectedContribution (ui w))).
Proof.
  intros Hw. split; [intros Hc; apply (reachable_confirming w Hw Hc)|].
  intros e Hcommit Hen.
  destruct e as [c| | | | | |]; try discriminate; [destruct c; try discriminate| |]; cbn in Hen.
  - apply isClickable_SubmitButton in Hen. apply (reachable_confirming w Hw Hen).
  - apply isClickable_isRendered, isRendered_SaveButton in Hen. destruct Hen as [_ Hst].
    apply statusUnsetOrPending_false in Hst. destruct Hst as (order & _ & -> & _). eauto.
  - rewrite isRendered_ConfirmContributionForm in Hen. apply (reachable_confirming w Hw Hen).
  - rewrite isRendered_ConfirmContributionForm in Hen. apply (reachable_confirming w Hw Hen).
Qed.

(** C5. Next is on screen exactly when the dialog is browsing and the status
    of the selected candidate is unset or [PENDING]; for any other status the
    Save button is on screen in its place.  The confirmation step is only
    entered by a click on Next, and a reachable state is never in the
    confirmation step with a candidate whose status is set and not pending. *)
Theorem next_only_for_unset_or_pending (w : World) :
  reachable w ->
  (isRendered (ui w) NextButton = true <->
     isConfirming (ui w) = false /\
     statusUnsetOrPending (selectedContribution (ui w)) = true) /\
  (isRendered (ui w) SaveButton = true <->
     isConfirming (ui w) = false /\
     statusUnsetOrPending (selectedContribution (ui w)) = false) /\
  (forall e, isConfirming (ui w) = false -> isConfirming (ui (step w e)) = true ->
     e = Click NextButton /\
     statusUnsetOrPending (selectedContribution (ui w)) = true) /\
  (forall order status,
     selectedContribution (ui w) = Some order ->
     order_status order = Some status -> status <> PENDING ->
     isConfirming (ui w) = false /\
     forall e, isConfirming (ui (step w e)) = false).
Proof.
  intros Hw. split; [apply isRendered_NextButton|].
  split; [apply isRendered_SaveButton|].
  split.
  - intros e Hbrowse Hconf.
    destruct (step_confirming w e Hconf) as [_ [Hold | (-> & _ & Hst)]]; [congruence|].
    split; [reflexivity | exact Hst].
  - intros order status Hsel Hstatus Hne.
    assert (statusUnsetOrPending (selectedContribution (ui w)) = false) as Hst.
    { apply statusUnsetOrPending_false. eauto. }
    assert (isConfirming (ui w) = false) as Hbrowse.
    { destruct (isConfirming (ui w)) eqn:Hc; [|reflexivity].
      destruct (reachable_confirming w Hw Hc) as [_ Hp]. congruence. }
    split; [exact Hbrowse|]. intros e.
    destruct (isConfirming (ui (step w e))) eqn:Hc; [|reflexivity].
    destruct (step_confirming w e Hc) as [_ [Hold | (_ & _ & Hp)]]; congruence.
Qed.

(** C8. With no contribution selected, a click on Next changes nothing: the
    state after the click is the state before it, and while the dialog is
    browsing the Next button is rendered disabled. *)
Theorem next_without_selection_is_noop (w : World) :
  selectedContribution (ui w) = None ->
  step w (Click NextButton) = w /\
  isConfirming (ui (step w (Click NextButton))) = isConfirming (ui w) /\
  isClickable (ui w) NextButton = false /\
  (isConfirming (ui w) = false ->
   rendered (ui w) NextButton = Some {| control := NextButton; disabled := true |}).
Proof.
  open_world w. cbn. intros ->.
  assert (isClickable
            {| selectedContribution := None; isConfirming := confirming;
               isSubmitting := submitting |} NextButton = false) as Hclick.
  { destruct confirming; reflexivity. }
  assert (Dialog.step row transactionsImport i18nGraphqlException
            {| ui := {| selectedContribution := None; isConfirming := confirming;
                        isSubmitting := submitting |};
               cache := store; pendingUpdates := pending; effects := log |}
            (Click NextButton)
          = {| ui := {| selectedContribution := None; isConfirming := confirming;
                        isSubmitting := submitting |};
               cache := store; pendingUpdates := pending; effects := log |}) as Hstep.
  { unfold Dialog.step. cbn [enabled ui]. now rewrite Hclick. }
  rewrite Hstep. cbn. repeat split; [exact Hclick|].
  intros ->. reflexivity.
Qed.

(** What runs after the awaited mutation, in any state with a mutation in
    flight: a toast when it failed, then [onClose]; the three state cells
    and the cache are left as they are. *)
Lemma step_UpdateRowsSettled (w : World) (failure : option Exception) :
  pendingUpdates w <> O ->
  ui (step w (UpdateRowsSettled failure)) = ui w /\
  cache (step w (UpdateRowsSettled failure)) = cache w /\
  pendingUpdates (step w (UpdateRowsSettled failure)) = Nat.pred (pendingUpdates w) /\
  effects (step w (UpdateRowsSettled failure)) =
    effects w
    ++ match failure with
       | Some error => [Toast ToastError (i18nGraphqlException error)]
       | None => []
       end
    ++ [OnClose (cache w)].
Proof.
  open_world w. cbn. intros Hp. unfold Dialog.step. cbn [enabled pendingUpdates].
  rewrite bool_decide_eq_true_2 by exact Hp.
  destruct failure; cbn; rewrite <- ?app_assoc; auto.
Qed.

(** The state right after a click on an enabled Save button. *)
Lemma direct_link_save_shape (w : World) :
  isClickable (ui w) SaveButton = true ->
  exists order,
    selectedContribution (ui w) = Some order /\
    step w (Click SaveButton) =
      {| ui := {| selectedContribution := Some order;
                  isConfirming := isConfirming (ui w);
                  isSubmitting := true |};
         cache := cache w;
         pendingUpdates := S (pendingUpdates w);
         effects := effects w
           ++ [UpdateRows (import_id transactionsImport)
                 [ {| update_id := row_id row; update_order_id := order_id order |} ]] |}.
Proof.
  intros Hclick.
  pose proof (isClickable_isRendered _ _ Hclick) as Hr.
  apply isRendered_SaveButton in Hr. destruct Hr as [_ Hst].
  apply statusUnsetOrPending_false in Hst.
  destruct Hst as (order & status & Hsel & _).
  exists order. split; [exact Hsel|].
  unfold Dialog.step. cbn [enabled]. rewrite Hclick.
  open_world w. cbn in *. subst selected.
  unfold saveOnClick, setIsSubmitting, emit. reflexivity.
Qed.

(** C2. When the confirmation form reports success, the cached row gets the
    selected contribution as its order, the [processed] and [orders] counters
    of the cached import each grow by one (the other counters are kept), and
    [onClose] is then invoked, last, on the cache that already holds both
    updates. *)
Theorem confirm_success_updates_cache_then_closes
    (w : World) (order : Order) (previous : option Order) (stats : TransactionsImportStats) :
  isConfirming (ui w) = true ->
  selectedContribution (ui w) = Some order ->
  rowOrder (cache w) !! row_id row = Some previous ->
  importStats (cache w) !! import_id transactionsImport = Some stats ->
  let w' := step w FormOnSuccess in
  rowOrder (cache w') !! row_id row = Some (Some order) /\
  importStats (cache w') !! import_id transactionsImport =
    Some {| processed := processed stats + 1;
            orders := orders stats + 1;
            otherStats := otherStats stats |} /\
  effects w' = effects w ++ [OnClose (cache w')].
Proof.
  open_world w. cbn. intros -> -> Hrow Hstats.
  unfold Dialog.step. cbn [enabled ui]. rewrite isRendered_ConfirmContributionForm. cbn.
  unfold onSuccess, onClose, emit, cacheModify, modifyRowOrder, modifyImportStats. cbn.
  rewrite !lookup_alter_eq, Hrow, Hstats. cbn. auto.
Qed.

(** C3. When Save can be clicked, a contribution whose status is set and is
    not [PENDING] is selected; the click issues one [updateRows] request, for
    this import and with the single row [{id: row.id, order: {id: order.id}}];
    and when the request settles, [onClose] is invoked whether it succeeded
    or failed, after an error toast in the second case. *)
Theorem direct_link_save_requests_then_closes (w : World) :
  isClickable (ui w) SaveButton = true ->
  exists order status,
    selectedContribution (ui w) = Some order /\
    order_status order = Some status /\ status <> PENDING /\
    let request :=
      UpdateRows (import_id transactionsImport)
        [ {| update_id := row_id row; update_order_id := order_id order |} ] in
    let clicked := step w (Click SaveButton) in
    effects clicked = effects w ++ [request] /\
    pendingUpdates clicked = S (pendingUpdates w) /\
    cache clicked = cache w /\
    forall failure,
      effects (step clicked (UpdateRowsSettled failure)) =
        effects w ++ [request]
        ++ match failure with
           | Some error => [Toast ToastError (i18nGraphqlException error)]
           | None => []
           end
        ++ [OnClose (cache w)].
Proof.
  intros Hclick.
  destruct (direct_link_save_shape w Hclick) as (order & Hsel & Hstep).
  pose proof (isClickable_isRendered _ _ Hclick) as Hr.
  apply isRendered_SaveButton in Hr. destruct Hr as [_ Hst].
  apply statusUnsetOrPending_false in Hst.
  destruct Hst as (order' & status & Hsel' & Hstatus & Hne).
  assert (order' = order) as -> by congruence.
  exists order, status. repeat (split; [assumption|]).
  cbv zeta. rewrite Hstep. cbn [effects pendingUpdates cache].
  repeat (split; [reflexivity|]).
  intros failure.
  match goal with
  | |- context [step ?v _] =>
      destruct (step_UpdateRowsSettled v failure) as (_ & _ & _ & ->); [discriminate|]
  end.
  cbn [effects cache]. now rewrite <- !app_assoc.
Qed.


End DialogFacts.

(** ** The documented examples of the amount range and the raw-value list *)

Section Examples.
Import AmountRange RawValues.

(** C1 (as the code has it). For [123] the precision is [-2] and the range is
    [{gte: 0, lte: 200}]; for [123456] the precision is [-5] and the range is
    [{gte: 0, lte: 200000}]: 80% of the amount is below the rounding unit
    and is rounded down to [0]. *)
Theorem getAmountRangeFilter_documented_amounts :
  js_neg (floor_log10 123) = Finite (-2) /\
  getAmountRangeFilter 123 = {| type := IS_BETWEEN; gte := 0; lte := 200 |} /\
  js_neg (floor_log10 123456) = Finite (-5) /\
  getAmountRangeFilter 123456 = {| type := IS_BETWEEN; gte := 0; lte := 200000 |}.
Proof. repeat split; vm_compute; reflexivity. Qed.

(** The ranges stated for C1, [{gte: 100, lte: 200}] and
    [{gte: 100000, lte: 200000}], are not the ones computed. *)
Lemma getAmountRangeFilter_gte_is_not_the_unit :
  ~ ((gte (getAmountRangeFilter 123) == 100 /\ lte (getAmountRangeFilter 123) == 200) /\
     (gte (getAmountRangeFilter 123456) == 100000 /\
      lte (getAmountRangeFilter 123456) == 200000))%Q.
Proof. intros [[H _] _]. vm_compute in H. discriminate H. Qed.

(** The lower bound is the rounding unit from 125 on, where 80% of the amount
    reaches [100]. *)
Example getAmountRangeFilter_125 :
  getAmountRangeFilter 125 = {| type := IS_BETWEEN; gte := 100; lte := 200 |} /\
  getAmountRangeFilter 124 = {| type := IS_BETWEEN; gte := 0; lte := 200 |} /\
  getAmountRangeFilter 999 = {| type := IS_BETWEEN; gte := 700; lte := 1200 |} /\
  getAmountRangeFilter 7 = {| type := IS_BETWEEN; gte := 5; lte := 9 |}.
Proof. repeat split; vm_compute; reflexivity. Qed.

Lemma getAmountRangeFilter_brackets_amount_witness :
  ((0 < 123456)%Z /\
   gte (getAmountRangeFilter 123456) <= inject_Z 123456 /\
   inject_Z 123456 <= lte (getAmountRangeFilter 123456) /\
   0 <= gte (getAmountRangeFilter 123456) /\
   0 <= lte (getAmountRangeFilter 123456))%Q.
Proof.
  split; [lia | apply (getAmountRangeFilter_brackets_amount 123456); lia].
Defined.

(** C9. An entry of the displayed raw-value list is an entry of the row whose
    value is not empty and whose key is none of the columns the configuration
    of the import reads the amount (credit, debit) and the date from. *)
Theorem displayedRawValues_excludes
    (rawValue : list (string * string)) (csvConfig : option CSVConfig)
    (key value : string) :
  In (key, value) (displayedRawValues rawValue csvConfig) ->
  In (key, value) rawValue /\
  value <> "" /\
  forall config, csvConfig = Some config ->
    target (credit (columns config)) <> Some key /\
    target (debit (columns config)) <> Some key /\
    target (date (columns config)) <> Some key.
Proof.
  unfold displayedRawValues. rewrite filter_In.
  intros [Hin Hkeep]. apply filterRawValueEntries_true in Hkeep.
  destruct Hkeep as [Hne Hcols].
  split; [exact Hin|]. split; [exact Hne|].
  intros config Hcfg. specialize (Hcols config Hcfg). cbn in Hcols.
  repeat split; intros E; apply Hcols; rewrite E; tauto.
Qed.

Example displayedRawValues_sample :
  displayedRawValues Samples.rawValue (Some Samples.csvConfig)
  = [ ("Description", "Invoice 42") ] /\
  displayedRawValues Samples.rawValue None
  = [ ("Booking date", "2024-03-01"); ("Credit", "1234.56"); ("Description", "Invoice 42") ].
Proof. split; reflexivity. Qed.

Lemma displayedRawValues_excludes_witness :
  In ("Description", "Invoice 42")
     (displayedRawValues Samples.rawValue (Some Samples.csvConfig)) /\
  (In ("Description", "Invoice 42") Samples.rawValue /\
   "Invoice 42" <> "" /\
   forall config, Some Samples.csvConfig = Some config ->
     target (credit (columns config)) <> Some "Description" /\
     target (debit (columns config)) <> Some "Description" /\
     target (date (columns config)) <> Some "Description").
Proof.
  assert (In ("Description", "Invoice 42")
             (displayedRawValues Samples.rawValue (Some Samples.csvConfig))) as H.
  { vm_compute. left. reflexivity. }
  split; [exact H|].
  exact (displayedRawValues_excludes Samples.rawValue (Some Samples.csvConfig) _ _ H).
Defined.

(** C10. Without a CSV configuration the filter keeps every entry whose value
    is not empty, whatever its key. *)
Theorem filterRawValueEntries_without_config (key value : string) :
  value <> "" -> filterRawValueEntries (key, value) None = true.
Proof.
  intros Hne. apply filterRawValueEntries_true. split; [exact Hne | discriminate].
Qed.

Lemma filterRawValueEntries_without_config_witness :
  "1234.56" <> "" /\ filterRawValueEntries ("Credit", "1234.56") None = true.
Proof.
  assert ("1234.56" <> "") as H by discriminate.
  split; [exact H | exact (filterRawValueEntries_without_config "Credit" "1234.56" H)].
Defined.

End Examples.

(** ** The dialog run on the sample data *)

Section SampleRuns.
Import Dialog.

(** Scenario: a pending contribution is selected, Next is clicked, the form
    submits and succeeds. *)
Example confirm_scenario :
  let final := Samples.step (Samples.step Samples.confirming FormOnSubmit) FormOnSuccess in
  rowOrder (cache final) !! "row-1" = Some (Some Samples.pendingOrder) /\
  importStats (cache final) !! "import-1"
    = Some {| processed := 4; orders := 2; otherStats := [("total", 10); ("ignored", 2)] |} /\
  effects final = [OnClose (cache final)].
Proof. vm_compute. repeat split; reflexivity. Qed.

(** Scenario: a paid contribution is selected, Save is clicked, the request
    fails. *)
Example direct_link_scenario :
  let final :=
    Samples.step (Samples.step Samples.paidSelected (Click SaveButton))
      (UpdateRowsSettled (Some (GraphqlException "Network error"))) in
  effects final =
    [ UpdateRows "import-1" [ {| update_id := "row-1"; update_order_id := "order-9" |} ];
      Toast ToastError "Network error";
      OnClose Samples.cache ] /\
  cache final = Samples.cache.
Proof. vm_compute. split; reflexivity. Qed.

Lemma confirm_success_updates_cache_then_closes_witness :
  let w' := Samples.step Samples.confirming FormOnSuccess in
  rowOrder (cache w') !! "row-1" = Some (Some Samples.pendingOrder) /\
  importStats (cache w') !! "import-1" =
    Some {| processed := processed Samples.stats + 1;
            orders := orders Samples.stats + 1;
            otherStats := otherStats Samples.stats |} /\
  effects w' = effects Samples.confirming ++ [OnClose (cache w')].
Proof.
  apply (confirm_success_updates_cache_then_closes
           Samples.row Samples.transactionsImport Samples.i18nGraphqlException
           Samples.confirming Samples.pendingOrder None Samples.stats);
    vm_compute; reflexivity.
Defined.

Lemma direct_link_save_requests_then_closes_witness :
  isClickable (ui Samples.paidSelected) SaveButton = true /\
  exists order status,
    selectedContribution (ui Samples.paidSelected) = Some order /\
    order_status order = Some status /\ status <> PENDING /\
    let request :=
      UpdateRows "import-1" [ {| update_id := "row-1"; update_order_id := order_id order |} ] in
    let clicked := Samples.step Samples.paidSelected (Click SaveButton) in
    effects clicked = effects Samples.paidSelected ++ [request] /\
    pendingUpdates clicked = S (pendingUpdates Samples.paidSelected) /\
    cache clicked = cache Samples.paidSelected /\
    forall failure,
      effects (Samples.step clicked (UpdateRowsSettled failure)) =
        effects Samples.paidSelected ++ [request]
        ++ match failure with
           | Some error => [Toast ToastError (Samples.i18nGraphqlException error)]
           | None => []
           end
        ++ [OnClose (cache Samples.paidSelected)].
Proof.
  assert (isClickable (ui Samples.paidSelected) SaveButton = true) as H
    by (vm_compute; reflexivity).
  split; [exact H|].
  exact (direct_link_save_requests_then_closes
           Samples.row Samples.transactionsImport Samples.i18nGraphqlException
           Samples.paidSelected H).
Defined.

Lemma confirming_and_commit_need_selection_witness :
  (isConfirming (ui Samples.confirming) = true ->
   is_Some (selectedContribution (ui Samples.confirming))) /\
  (forall e, isCommit e = true -> enabled Samples.confirming e = true ->
             is_Some (selectedContribution (ui Samples.confirming))).
Proof.
  exact (confirming_and_commit_need_selection
           Samples.row Samples.transactionsImport Samples.i18nGraphqlException
           Samples.confirming
           (reachable_step _ _ _ _ _
              (reachable_step _ _ _ _ _ (reachable_initial _ _ _ Samples.cache)))).
Defined.

Lemma next_only_for_unset_or_pending_witness :
  isRendered (ui Samples.paidSelected) NextButton = false /\
  isRendered (ui Samples.paidSelected) SaveButton = true /\
  isConfirming (ui Samples.paidSelected) = false /\
  forall e, isConfirming (ui (Samples.step Samples.paidSelected e)) = false.
Proof.
  destruct (next_only_for_unset_or_pending
              Samples.row Samples.transactionsImport Samples.i18nGraphqlException
              Samples.paidSelected
              (reachable_step _ _ _ _ _ (reachable_initial _ _ _ Samples.cache)))
    as (_ & Hsave & _ & Hnever).
  split; [vm_compute; reflexivity|].
  split; [apply Hsave; vm_compute; split; reflexivity|].
  apply (Hnever Samples.paidOrder PAID); [reflexivity | reflexivity | discriminate].
Defined.

Lemma next_without_selection_is_noop_witness :
  let w := initialWorld Samples.cache in
  selectedContribution (ui w) = None /\
  Samples.step w (Click NextButton) = w /\
  isConfirming (ui (Samples.step w (Click NextButton))) = isConfirming (ui w) /\
  isClickable (ui w) NextButton = false /\
  (isConfirming (ui w) = false ->
   rendered (ui w) NextButton = Some {| control := NextButton; disabled := true |}).
Proof.
  split; [reflexivity|].
  exact (next_without_selection_is_noop
           Samples.row Samples.transactionsImport Samples.i18nGraphqlException
           (initialWorld Samples.cache) eq_refl).
Defined.



End SampleRuns.

(** ** The amount range in integer arithmetic *)

Section AmountRangeIntegers.
Import AmountRange.
Local Open Scope Q_scope.

Lemma Qfloor_div (a b : Z) :
  (0 < b)%Z -> Qfloor (inject_Z a / inject_Z b) = (a / b)%Z.
Proof.
  intros Hb. destruct b as [|b|b]; try lia.
  now rewrite <- Qmake_Qdiv.
Qed.

Lemma Qceiling_div (a b : Z) :
  (0 < b)%Z -> Qceiling (inject_Z a / inject_Z b) = (- ((- a) / b))%Z.
Proof.
  intros Hb. unfold Qceiling. rewrite <- (Qfloor_div (- a) b Hb).
  f_equal. apply Qfloor_comp. rewrite inject_Z_opp. unfold Qdiv. ring.
Qed.

Lemma ilog10_nonneg (v : Z) : (0 <= ilog10 v)%Z.
Proof.
  unfold ilog10. generalize (Z.to_nat (Z.log2 v)). intros fuel. revert v.
  induction fuel as [|fuel IH]; intros v; cbn [ilog10_aux]; [lia|].
  destruct (v <? 10)%Z; [lia|]. specialize (IH (v / 10)%Z). lia.
Qed.

Lemma ten_power_inject (k : Z) : (0 <= k)%Z -> 10 ^ k == inject_Z (10 ^ k).
Proof. intros Hk. symmetry. exact (Zpower_Qpower 10 k Hk). Qed.

Lemma unit_pos (k : Z) : (0 <= k)%Z -> (0 < 10 ^ k)%Z.
Proof. intros Hk. apply Z.pow_pos_nonneg; lia. Qed.

(** Rounding at a precision [-k <= 0] is rounding of the quotient by [10^k]. *)
Lemma createRound_unit (func : Q -> Z) (x : Q) (k : Z) :
  (forall a b, a == b -> func a = func b) ->
  (0 <= k)%Z ->
  createRound func x (Finite (- k))
  == inject_Z (func (x / inject_Z (10 ^ k)) * 10 ^ k).
Proof.
  intros Hfunc Hk. unfold createRound. cbn [toInteger].
  pose proof (unit_pos k Hk) as Hu.
  assert (~ inject_Z (10 ^ k) == 0) as Hnz.
  { intros E. unfold Qeq in E; cbn in E. lia. }
  replace (Z.min (- k) 292) with (- k)%Z by lia.
  destruct (Z.eqb_spec (- k) 0) as [E|E].
  - assert (k = 0%Z) as -> by lia. change (10 ^ 0)%Z with 1%Z.
    rewrite Z.mul_1_r. rewrite (Hfunc (x / inject_Z 1) x); [reflexivity|].
    unfold Qdiv. change (/ inject_Z 1) with 1. ring.
  - rewrite Qred_correct, Z.opp_involutive, inject_Z_mult.
    rewrite (ten_power_inject k Hk).
    rewrite (Hfunc (x * 10 ^ (- k)) (x / inject_Z (10 ^ k))); [reflexivity|].
    rewrite Qpower_opp, (ten_power_inject k Hk). reflexivity.
Qed.

Lemma precision_of_positive (v : Z) :
  (0 < v)%Z -> js_neg (floor_log10 v) = Finite (- ilog10 v).
Proof.
  intros Hv. unfold floor_log10.
  destruct (Z.ltb_spec v 0); [lia|]. destruct (Z.eqb_spec v 0); [lia|]. reflexivity.
Qed.

(** The exact arithmetic of the embedding, on integers: with
    [unit = 10 ^ ilog10 v], the lower bound is [8 v / (10 unit)] units,
    rounded down, and the upper bound [12 v / (10 unit)] units, rounded up. *)
Lemma exact_range_of_positive (v : Z) :
  (0 < v)%Z ->
  let unit := (10 ^ ilog10 v)%Z in
  gte (getAmountRangeFilter v) == inject_Z ((8 * v) / (10 * unit) * unit) /\
  lte (getAmountRangeFilter v) == inject_Z (- ((- (12 * v)) / (10 * unit)) * unit).
Proof.
  intros Hv unit. pose proof (ilog10_nonneg v) as Hk.
  pose proof (unit_pos _ Hk) as Hu. fold unit in Hu.
  assert (~ inject_Z unit == 0) as Hnz.
  { intros E. unfold Qeq in E; cbn in E. lia. }
  cbn [getAmountRangeFilter gte lte]. rewrite (precision_of_positive v Hv).
  unfold floor, ceil. split.
  - rewrite (createRound_unit Qfloor _ _ Qfloor_comp Hk). fold unit.
    rewrite <- (Qfloor_div (8 * v) (10 * unit)) by lia.
    apply inject_Z_injective. f_equal.
    apply Qfloor_comp. rewrite !inject_Z_mult. field; repeat split; try exact Hnz; discriminate.
  - rewrite (createRound_unit Qceiling _ _ Qceiling_comp Hk). fold unit.
    rewrite <- (Qceiling_div (12 * v) (10 * unit)) by lia.
    apply inject_Z_injective. f_equal.
    apply Qceiling_comp. rewrite !inject_Z_mult. field; repeat split; try exact Hnz; discriminate.
Qed.

(** The theorems below are stated for amounts of at most fourteen digits.
    There the doubles of the source carry [0.8 v], [1.2 v] and the decimal
    logarithm without a rounding that changes the result, so that the exact
    arithmetic describes what the code returns.  From about [10^15] on the
    doubles round differently ([Math.log10(999999999999999)] is [15], and
    [7499999999999999 * 0.8] is [6e15]) and these statements are not made. *)

(** The bounds of a positive amount below [10^14], computed on integers:
    with [unit = 10 ^ ilog10 v], the lower bound is [8 v / (10 unit)] units,
    rounded down, and the upper bound [12 v / (10 unit)] units, rounded up. *)
Theorem getAmountRangeFilter_integer_form (v : Z) :
  (0 < v < 10 ^ 14)%Z ->
  let unit := (10 ^ ilog10 v)%Z in
  gte (getAmountRangeFilter v) == inject_Z ((8 * v) / (10 * unit) * unit) /\
  lte (getAmountRangeFilter v) == inject_Z (- ((- (12 * v)) / (10 * unit)) * unit).
Proof.
  intros [Hv _]. exact (exact_range_of_positive v Hv).
Qed.

(** Both bounds of a positive amount below [10^14] are whole multiples of
    the rounding unit: between 0 and 7 units for the lower bound, between 2
    and 12 units for the upper bound, where the amount itself is between 1
    and 10 units. *)
Theorem getAmountRangeFilter_multiples_of_unit (v : Z) :
  (0 < v < 10 ^ 14)%Z ->
  let unit := (10 ^ ilog10 v)%Z in
  (unit <= v < 10 * unit)%Z /\
  exists a b : Z,
    gte (getAmountRangeFilter v) == inject_Z (a * unit) /\
    lte (getAmountRangeFilter v) == inject_Z (b * unit) /\
    (0 <= a <= 7)%Z /\ (2 <= b <= 12)%Z.
Proof.
  intros [Hv _] unit.
  destruct (exact_range_of_positive v Hv) as [Hg Hl]. fold unit in Hg, Hl.
  pose proof (ilog10_spec v Hv) as Hspec.
  rewrite Z.pow_add_r in Hspec by (try apply ilog10_nonneg; lia).
  change (10 ^ 1)%Z with 10%Z in Hspec. fold unit in Hspec.
  split; [lia|].
  exists ((8 * v) / (10 * unit))%Z, (- ((- (12 * v)) / (10 * unit)))%Z.
  split; [exact Hg|]. split; [exact Hl|].
  assert (0 < 10 * unit)%Z as Hpos by lia.
  split.
  - split.
    + apply Z.div_pos; lia.
    + assert ((8 * v) / (10 * unit) < 8)%Z; [|lia].
      apply Z.div_lt_upper_bound; lia.
  - assert (- 12 <= (- (12 * v)) / (10 * unit))%Z.
    { apply Z.div_le_lower_bound; lia. }
    assert ((- (12 * v)) / (10 * unit) < - 1)%Z.
    { apply Z.div_lt_upper_bound; lia. }
    lia.
Qed.

(** The lower bound of a positive amount below [10^14] is zero exactly when
    the amount is below 1.25 rounding units, that is when 80% of it is less
    than a unit. *)
Theorem getAmountRangeFilter_gte_zero (v : Z) :
  (0 < v < 10 ^ 14)%Z ->
  (gte (getAmountRangeFilter v) == 0 <-> (4 * v < 5 * 10 ^ ilog10 v)%Z).
Proof.
  intros [Hv _].
  destruct (exact_range_of_positive v Hv) as [Hg _]. cbv zeta in Hg.
  pose proof (unit_pos _ (ilog10_nonneg v)) as Hu.
  set (unit := (10 ^ ilog10 v)%Z) in *.
  rewrite Hg. change 0 with (inject_Z 0). split.
  - intros E. unfold Qeq in E. cbn in E. rewrite Z.mul_1_r in E.
    assert ((8 * v) / (10 * unit) = 0)%Z as Hq
      by (apply Z.mul_eq_0 in E; destruct E; [assumption | lia]).
    apply Z.div_small_iff in Hq; lia.
  - intros Hlt. rewrite Z.div_small by lia. reflexivity.
Qed.

(** How far the bounds of a positive amount below [10^14] are from 80% and
    120% of it: less than one rounding unit. *)
Theorem getAmountRangeFilter_within_one_unit (v : Z) :
  (0 < v < 10 ^ 14)%Z ->
  let unit := inject_Z (10 ^ ilog10 v) in
  inject_Z v * 0.8 - unit < gte (getAmountRangeFilter v) /\
  lte (getAmountRangeFilter v) < inject_Z v * 1.2 + unit.
Proof.
  intros [Hv _] unit.
  destruct (exact_range_of_positive v Hv) as [Hg Hl]. cbv zeta in Hg, Hl.
  pose proof (unit_pos _ (ilog10_nonneg v)) as Hu. unfold unit.
  set (u := (10 ^ ilog10 v)%Z) in *.
  rewrite Hg, Hl.
  pose proof (Z.div_mod (8 * v) (10 * u) ltac:(lia)) as Hd1.
  pose proof (Z.mod_pos_bound (8 * v) (10 * u) ltac:(lia)) as Hm1.
  pose proof (Z.div_mod (- (12 * v)) (10 * u) ltac:(lia)) as Hd2.
  pose proof (Z.mod_pos_bound (- (12 * v)) (10 * u) ltac:(lia)) as Hm2.
  set (q1 := ((8 * v) / (10 * u))%Z) in *. set (r1 := ((8 * v) mod (10 * u))%Z) in *.
  set (q2 := ((- (12 * v)) / (10 * u))%Z) in *.
  set (r2 := ((- (12 * v)) mod (10 * u))%Z) in *.
  split; unfold Qlt, Qminus, Qplus, Qmult, Qopp, inject_Z; cbn; nia.
Qed.

(** Amounts that are not positive, above [- 10^14].  The logarithm is then
    not a number (or infinite, for zero), lodash rounds at precision 0 (or
    292), and the "range" has its upper bound at or below its lower bound; it
    contains the amount only from -4 to 0, and is empty from -5 downwards. *)
Theorem getAmountRangeFilter_not_positive (v : Z) :
  (- 10 ^ 14 < v <= 0)%Z ->
  gte (getAmountRangeFilter v) == inject_Z ((8 * v) / 10) /\
  lte (getAmountRangeFilter v) == inject_Z (- ((- (12 * v)) / 10)) /\
  lte (getAmountRangeFilter v) <= gte (getAmountRangeFilter v) /\
  ((gte (getAmountRangeFilter v) <= inject_Z v /\
    inject_Z v <= lte (getAmountRangeFilter v)) <-> (- 4 <= v)%Z).
Proof.
  intros [_ Hv].
  assert (gte (getAmountRangeFilter v) == inject_Z ((8 * v) / 10) /\
          lte (getAmountRangeFilter v) == inject_Z (- ((- (12 * v)) / 10))) as [Hg Hl].
  { destruct (Z.eq_dec v 0%Z) as [->|Hne]; [split; vm_compute; reflexivity|].
    cbn [getAmountRangeFilter gte lte]. unfold floor_log10.
    destruct (Z.ltb_spec v 0%Z); [|lia]. cbn [js_neg].
    unfold floor, ceil, createRound. cbn [toInteger].
    change (Z.min 0 292 =? 0)%Z with true. cbv iota.
    unfold Qceiling, Qfloor. cbn [Qmult Qopp inject_Z Qnum Qden].
    change (Z.pos (1 * 10)) with 10%Z.
    rewrite (Z.mul_comm v 8), (Z.mul_comm v 12). split; reflexivity. }
  split; [exact Hg|]. split; [exact Hl|].
  rewrite Hg, Hl, <- !Zle_Qle.
  pose proof (Z.div_mod (8 * v) 10 ltac:(lia)).
  pose proof (Z.mod_pos_bound (8 * v) 10 ltac:(lia)).
  pose proof (Z.div_mod (- (12 * v)) 10 ltac:(lia)).
  pose proof (Z.mod_pos_bound (- (12 * v)) 10 ltac:(lia)).
  split; [lia|]. split; lia.
Qed.

End AmountRangeIntegers.

(** ** More on the raw values and on the date of the row *)

Section RawValuesShown.
Import Stdlib.Strings.Ascii RawValues ImportedData Dialog.

(** Nothing else is hidden: an entry of the row whose value is not empty and
    whose key is not the credit, debit or date column of the configuration
    is displayed. *)
Theorem displayedRawValues_shows_the_rest
    (rawValue : list (string * string)) (csvConfig : option CSVConfig)
    (key value : string) :
  In (key, value) rawValue ->
  value <> "" ->
  (forall config, csvConfig = Some config ->
     target (credit (columns config)) <> Some key /\
     target (debit (columns config)) <> Some key /\
     target (date (columns config)) <> Some key) ->
  In (key, value) (displayedRawValues rawValue csvConfig).
Proof.
  intros Hin Hne Hcols. unfold displayedRawValues. apply filter_In.
  split; [exact Hin|]. apply filterRawValueEntries_true. split; [exact Hne|].
  intros config Hcfg. destruct (Hcols config Hcfg) as (Hc & Hd & Hdt).
  cbn. intros [E | [E | [E | []]]]; congruence.
Qed.

(** A configuration whose credit, debit and date columns are not mapped
    hides no key: the list is the one displayed without configuration. *)
Theorem unmapped_columns_hide_nothing
    (rawValue : list (string * string)) (config : CSVConfig) :
  target (credit (columns config)) = None ->
  target (debit (columns config)) = None ->
  target (date (columns config)) = None ->
  displayedRawValues rawValue (Some config) = displayedRawValues rawValue None.
Proof.
  intros Hc Hd Hdt. unfold displayedRawValues. apply filter_ext.
  intros [key value]. cbn [filterRawValueEntries]. rewrite Hc, Hd, Hdt.
  destruct (isEmpty value); reflexivity.
Qed.

Lemma splitHead_app (sep : Ascii.ascii) (s : string) :
  exists rest,
    s = String.append (splitHead sep s) rest /\
    (rest = EmptyString \/ exists r, rest = String sep r).
Proof.
  induction s as [|c s (rest & Hs & Hrest)]; cbn [splitHead].
  - exists EmptyString. auto.
  - destruct (Ascii.eqb_spec c sep) as [->|Hne].
    + exists (String sep s). split; [reflexivity | eauto].
    + exists rest. split; [|exact Hrest].
      change (String c s = String c (String.append (splitHead sep s) rest)).
      now rewrite <- Hs.
Qed.

Lemma splitHead_no_separator (sep : Ascii.ascii) (s : string) :
  ~ In sep (String.list_ascii_of_string (splitHead sep s)).
Proof.
  induction s as [|c s IH]; cbn [splitHead]; [intros []|].
  destruct (Ascii.eqb_spec c sep) as [->|Hne]; [intros []|].
  cbn. intros [E | H]; [congruence | exact (IH H)].
Qed.

Lemma splitHead_before (sep : Ascii.ascii) (head tail : string) :
  ~ In sep (String.list_ascii_of_string head) ->
  splitHead sep (String.append head (String sep tail)) = head.
Proof.
  induction head as [|c head IH]; intros Hnot.
  - change (splitHead sep (String sep tail) = EmptyString).
    cbn [splitHead]. now rewrite Ascii.eqb_refl.
  - change (splitHead sep (String c (String.append head (String sep tail)))
            = String c head).
    cbn [splitHead]. cbn in Hnot.
    destruct (Ascii.eqb_spec c sep) as [->|Hne]; [exfalso; auto|].
    rewrite IH; [reflexivity | auto].
Qed.

(** The [processedAt] value of the confirmation form, which is also the
    [lte] of the "Search date" filter, is the date of the row up to its first
    ['T'], excluded: it has no ['T'], the date is this value followed by
    nothing or by a text that starts with ['T'], and for a date written
    [day ++ "T" ++ time] with no ['T'] in [day] it is [day]. *)
Theorem processedAt_is_the_day (row : TransactionsImportRow) :
  searchDateLte row = processedAt (initialValues row) /\
  ~ In "T"%char (String.list_ascii_of_string (processedAt (initialValues row))) /\
  (exists rest,
     row_date row = String.append (processedAt (initialValues row)) rest /\
     (rest = EmptyString \/ exists time, rest = String "T"%char time)) /\
  (forall day time,
     row_date row = String.append day (String "T"%char time) ->
     ~ In "T"%char (String.list_ascii_of_string day) ->
     processedAt (initialValues row) = day).
Proof.
  split; [reflexivity|]. cbn [initialValues processedAt].
  split; [apply splitHead_no_separator|].
  split; [apply splitHead_app|].
  intros day time -> Hday. now apply splitHead_before.
Qed.

End RawValuesShown.

(** ** What the events of the dialog change, and what they leave alone *)

Section DialogFrames.
Import Dialog.

Variable row : TransactionsImportRow.
Variable transactionsImport : TransactionsImport.
Variable i18nGraphqlException : Exception -> string.

Local Abbreviation step := (Dialog.step row transactionsImport i18nGraphqlException).
Local Abbreviation run := (Dialog.run row transactionsImport i18nGraphqlException).
Local Abbreviation reachable := (Dialog.reachable row transactionsImport i18nGraphqlException).

Ltac split_world w :=
  destruct w as [[selected confirming submitting] store pending log].

Ltac step_cases w e :=
  destruct w as [[[[orderId legacyId [status|]]|] [|] [|]] store pending log];
  destruct e as [[| | | | | |] | sel | | | | failure |];
  unfold Dialog.step, enabled, handle, onClick, isClickable, isRendered, rendered, render,
    statusUnsetOrPending, saveOnClick, saveSettled, onSuccess, onClose, toast, emit,
    cacheModify, setIsConfirming, setIsSubmitting, setSelectedContribution;
  cbn;
  repeat match goal with
    | |- context [bool_decide ?P] => destruct (bool_decide P) eqn:?; cbn
    | |- context [match ?s with Some _ => _ | None => _ end] => destruct s eqn:?; cbn
    end.

Lemma run_cons (w : World) (e : Event) (events : list Event) :
  run w (e :: events) = run (step w e) events.
Proof. reflexivity. Qed.

Lemma run_snoc (w : World) (events : list Event) (e : Event) :
  run w (events ++ [e]) = step (run w events) e.
Proof. unfold Dialog.run. now rewrite fold_left_app. Qed.

Lemma reachable_run (w : World) (events : list Event) :
  reachable w -> reachable (run w events).
Proof.
  revert w. induction events as [|e events IH]; intros w Hw; [exact Hw|].
  rewrite run_cons. apply IH. now apply reachable_step.
Qed.

Lemma step_cache (w : World) (e : Event) :
  e <> FormOnSuccess -> cache (step w e) = cache w.
Proof. intros Hne. step_cases w e; congruence. Qed.

(** Of the handlers of the dialog, only the success callback of the
    confirmation form writes to the cache: selecting, Next, Back, the form
    starting or failing to submit, cancelling, closing, the click on Save and
    the failure of its request all leave the cache as it was.  The successful
    settlement of an update request is left out of the statement: what Apollo
    merges into the cache from the response of the mutation is not modelled. *)
Theorem cache_only_written_on_confirm_success (w : World) (events : list Event) :
  ~ In FormOnSuccess events ->
  ~ In (UpdateRowsSettled None) events ->
  cache (run w events) = cache w.
Proof.
  revert w. induction events as [|e events IH]; intros w Hnot Hsettled; [reflexivity|].
  rewrite run_cons, IH, step_cache; [reflexivity | | |].
  - intros H. apply Hnot. cbn. auto.
  - intros H. apply Hnot. cbn. auto.
  - intros H. apply Hsettled. cbn. auto.
Qed.

Lemma step_requests (w : World) (e : Event) (importId : string) (rows : list RowUpdate) :
  In (UpdateRows importId rows) (effects (step w e)) ->
  In (UpdateRows importId rows) (effects w) \/
  (e = Click SaveButton /\
   importId = import_id transactionsImport /\
   exists order,
     selectedContribution (ui w) = Some order /\
     rows = [ {| update_id := row_id row; update_order_id := order_id order |} ]).
Proof.
  step_cases w e; intros H; rewrite ?in_app_iff in H; cbn in H;
    repeat match goal with
      | H : _ \/ _ |- _ => destruct H
      | H : False |- _ => destruct H
      end;
    try discriminate; try (left; assumption).
  all: match goal with H : UpdateRows _ _ = UpdateRows _ _ |- _ => injection H as <- <- end.
  all: right; eauto.
Qed.

(** Every row-update request the dialog has sent is for its own import and
    carries exactly one row, its own. *)
Theorem requests_are_for_own_row (w : World) (importId : string) (rows : list RowUpdate) :
  reachable w ->
  In (UpdateRows importId rows) (effects w) ->
  importId = import_id transactionsImport /\
  exists orderId, rows = [ {| update_id := row_id row; update_order_id := orderId |} ].
Proof.
  induction 1 as [c | w e Hw IH]; [intros []|].
  intros Hin. apply step_requests in Hin.
  destruct Hin as [Hold | (_ & -> & order & _ & ->)]; [exact (IH Hold)|]. eauto.
Qed.

(** No request is sent unless Save is clicked. *)
Theorem no_request_without_save
    (w : World) (events : list Event) (importId : string) (rows : list RowUpdate) :
  ~ In (Click SaveButton) events ->
  In (UpdateRows importId rows) (effects (run w events)) ->
  In (UpdateRows importId rows) (effects w).
Proof.
  revert w. induction events as [|e events IH]; intros w Hnot Hin; [exact Hin|].
  rewrite run_cons in Hin. apply IH in Hin; [|intros H; apply Hnot; cbn; auto].
  apply step_requests in Hin. destruct Hin as [Hold | (-> & _)]; [exact Hold|].
  exfalso. apply Hnot. cbn. auto.
Qed.

Lemma step_toasts (w : World) (e : Event) (variant : ToastVariant) (message : string) :
  In (Toast variant message) (effects (step w e)) ->
  In (Toast variant message) (effects w) \/
  exists error,
    e = UpdateRowsSettled (Some error) /\
    variant = ToastError /\ message = i18nGraphqlException error.
Proof.
  step_cases w e; intros H; rewrite ?in_app_iff in H; cbn in H;
    repeat match goal with
      | H : _ \/ _ |- _ => destruct H
      | H : False |- _ => destruct H
      end;
    try discriminate; try (left; assumption).
  all: match goal with H : Toast _ _ = Toast _ _ |- _ => injection H as <- <- end.
  all: right; eauto.
Qed.

(** A toast is shown only when an awaited update request has failed, and it
    is then an error toast with the message of that failure. *)
Theorem toast_only_on_failed_update
    (w : World) (events : list Event) (variant : ToastVariant) (message : string) :
  In (Toast variant message) (effects (run w events)) ->
  In (Toast variant message) (effects w) \/
  exists error,
    In (UpdateRowsSettled (Some error)) events /\
    variant = ToastError /\ message = i18nGraphqlException error.
Proof.
  revert w. induction events as [|e events IH]; intros w Hin; [left; exact Hin|].
  rewrite run_cons in Hin. apply IH in Hin.
  destruct Hin as [Hin | (error & Hev & Hv & Hm)].
  - apply step_toasts in Hin. destruct Hin as [Hold | (error & -> & Hv & Hm)]; [left; exact Hold|].
    right. exists error. cbn. auto.
  - right. exists error. cbn. auto.
Qed.

Lemma step_selection (w : World) (e : Event) :
  (forall selected, e <> SetSelectedContribution selected) ->
  selectedContribution (ui (step w e)) = selectedContribution (ui w).
Proof.
  intros Hne. step_cases w e; try reflexivity.
  all: exfalso; eapply Hne; reflexivity.
Qed.

(** The selection is only changed by the table of suggestions: going to the
    confirmation step and back, submitting, failing, saving and closing all
    keep the selected contribution. *)
Theorem selection_only_changed_by_table (w : World) (events : list Event) :
  (forall selected, ~ In (SetSelectedContribution selected) events) ->
  selectedContribution (ui (run w events)) = selectedContribution (ui w).
Proof.
  revert w. induction events as [|e events IH]; intros w Hnot; [reflexivity|].
  rewrite run_cons, IH, step_selection; [reflexivity | |].
  - intros selected ->. apply (Hnot selected). cbn. auto.
  - intros selected H. apply (Hnot selected). cbn. auto.
Qed.

Lemma step_isSubmitting (w : World) (e : Event) :
  e <> FormOnFailure ->
  isSubmitting (ui w) = true -> isSubmitting (ui (step w e)) = true.
Proof. intros Hne. step_cases w e; cbn; congruence. Qed.

(** Once [isSubmitting] is true, only the failure callback of the
    confirmation form makes it false again. *)
Theorem isSubmitting_only_reset_by_form_failure (w : World) (events : list Event) :
  ~ In FormOnFailure events ->
  isSubmitting (ui w) = true ->
  isSubmitting (ui (run w events)) = true.
Proof.
  revert w. induction events as [|e events IH]; intros w Hnot Hsub; [exact Hsub|].
  rewrite run_cons. apply IH; [intros H; apply Hnot; cbn; auto|].
  apply step_isSubmitting; [|exact Hsub]. intros ->. apply Hnot. cbn. auto.
Qed.

(** Back returns to the list with the selection kept and nothing else
    touched, and Next then leads to the very state that was left. *)
Theorem back_then_next_restores (w : World) :
  reachable w ->
  isConfirming (ui w) = true ->
  let browsing := step w (Click BackButton) in
  isConfirming (ui browsing) = false /\
  selectedContribution (ui browsing) = selectedContribution (ui w) /\
  cache browsing = cache w /\
  effects browsing = effects w /\
  step browsing (Click NextButton) = w.
Proof.
  intros Hw Hc.
  destruct (reachable_confirming row transactionsImport i18nGraphqlException w Hw Hc)
    as [[order Hsel] Hst].
  split_world w. cbn in Hc, Hsel, Hst. subst confirming selected.
  destruct order as [orderId legacyId [status|]]; cbn in Hst;
    [apply bool_decide_eq_true in Hst; subst status|];
    repeat split; reflexivity.
Qed.

Lemma success_or_not (e : Event) : e = FormOnSuccess \/ e <> FormOnSuccess.
Proof. destruct e; (left; reflexivity) || (right; discriminate). Qed.

Lemma step_cache_entries (w : World) (e : Event) :
  (forall id, id <> row_id row ->
     rowOrder (cache (step w e)) !! id = rowOrder (cache w) !! id) /\
  (forall id, id <> import_id transactionsImport ->
     importStats (cache (step w e)) !! id = importStats (cache w) !! id) /\
  (forall id, is_Some (rowOrder (cache (step w e)) !! id)
              <-> is_Some (rowOrder (cache w) !! id)) /\
  (forall id, is_Some (importStats (cache (step w e)) !! id)
              <-> is_Some (importStats (cache w) !! id)).
Proof.
  destruct (success_or_not e) as [->|Hne];
    [|rewrite (step_cache w e Hne); repeat split; auto].
  unfold Dialog.step. destruct (enabled w FormOnSuccess); [|repeat split; auto].
  cbn [handle]. unfold onSuccess, onClose, emit, cacheModify, modifyRowOrder,
    modifyImportStats. cbn.
  split; [|split; [|split]].
  - intros id Hne. now rewrite lookup_alter_ne by congruence.
  - intros id Hne. now rewrite lookup_alter_ne by congruence.
  - intros id. rewrite lookup_alter. case_decide; [subst id|reflexivity].
    now rewrite fmap_is_Some.
  - intros id. rewrite lookup_alter. case_decide; [subst id|reflexivity].
    now rewrite fmap_is_Some.
Qed.

(** The dialog writes to no cache entry but those of its own row and its own
    import, and it neither adds an entry to the cache nor removes one: a row
    or an import that is not cached stays absent. *)
Theorem cache_entries_kept (w : World) (events : list Event) :
  (forall id, id <> row_id row ->
     rowOrder (cache (run w events)) !! id = rowOrder (cache w) !! id) /\
  (forall id, id <> import_id transactionsImport ->
     importStats (cache (run w events)) !! id = importStats (cache w) !! id) /\
  (forall id, is_Some (rowOrder (cache (run w events)) !! id)
              <-> is_Some (rowOrder (cache w) !! id)) /\
  (forall id, is_Some (importStats (cache (run w events)) !! id)
              <-> is_Some (importStats (cache w) !! id)).
Proof.
  revert w. induction events as [|e events IH]; intros w; [repeat split; auto|].
  rewrite run_cons.
  destruct (IH (step w e)) as (H1 & H2 & H3 & H4).
  destruct (step_cache_entries w e) as (S1 & S2 & S3 & S4).
  repeat split; try intros id Hne; try intros id.
  - now rewrite H1, S1.
  - now rewrite H2, S2.
  - intros H. apply S3, H3, H.
  - intros H. apply H3, S3, H.
  - intros H. apply S4, H4, H.
  - intros H. apply H4, S4, H.
Qed.

Lemma step_stats (w : World) (e : Event) (stats : TransactionsImportStats) :
  importStats (cache w) !! import_id transactionsImport = Some stats ->
  importStats (cache (step w e)) !! import_id transactionsImport = Some stats \/
  importStats (cache (step w e)) !! import_id transactionsImport =
    Some {| processed := processed stats + 1;
            orders := orders stats + 1;
            otherStats := otherStats stats |}.
Proof.
  intros Hst. destruct (success_or_not e) as [->|Hne];
    [|left; now rewrite (step_cache w e Hne)].
  unfold Dialog.step. destruct (enabled w FormOnSuccess); [|left; exact Hst].
  right. cbn [handle]. unfold onSuccess, onClose, emit, cacheModify, modifyRowOrder,
    modifyImportStats. cbn.
  now rewrite lookup_alter_eq, Hst.
Qed.

(** The [processed] and [orders] counters of the cached import only move
    together: after any run of events both have grown by the same number, at
    most one per event, and the other counters are what they were. *)
Theorem processed_and_orders_move_together
    (w : World) (events : list Event) (stats : TransactionsImportStats) :
  importStats (cache w) !! import_id transactionsImport = Some stats ->
  exists n : nat,
    (n <= length events)%nat /\
    importStats (cache (run w events)) !! import_id transactionsImport =
      Some {| processed := processed stats + Z.of_nat n;
              orders := orders stats + Z.of_nat n;
              otherStats := otherStats stats |}.
Proof.
  revert w stats. induction events as [|e events IH]; intros w stats Hst.
  - exists O. split; [reflexivity|]. cbn. rewrite Hst. destruct stats; cbn.
    now rewrite !Z.add_0_r.
  - rewrite run_cons. destruct (step_stats w e stats Hst) as [Hsame | Hinc].
    + destruct (IH _ _ Hsame) as (n & Hn & Hrun). exists n. split; [cbn; lia | exact Hrun].
    + destruct (IH _ _ Hinc) as (n & Hn & Hrun). exists (S n). split; [cbn; lia|].
      rewrite Hrun. cbn [processed orders otherStats]. do 2 f_equal; lia.
Qed.

End DialogFrames.

(** ** The further facts on the sample data *)

Section FurtherSampleRuns.
Import Stdlib.Strings.Ascii AmountRange RawValues ImportedData Dialog.

Lemma getAmountRangeFilter_integer_form_witness :
  ((0 < 123456 < 10 ^ 14)%Z /\
   gte (getAmountRangeFilter 123456)
   == inject_Z ((8 * 123456) / (10 * 10 ^ ilog10 123456) * 10 ^ ilog10 123456) /\
   lte (getAmountRangeFilter 123456)
   == inject_Z (- ((- (12 * 123456)) / (10 * 10 ^ ilog10 123456)) * 10 ^ ilog10 123456))%Q.
Proof.
  split; [lia | apply (getAmountRangeFilter_integer_form 123456); lia].
Defined.

Lemma getAmountRangeFilter_multiples_of_unit_witness :
  (0 < 999 < 10 ^ 14)%Z /\
  (10 ^ ilog10 999 <= 999 < 10 * 10 ^ ilog10 999)%Z /\
  exists a b : Z,
    (gte (getAmountRangeFilter 999) == inject_Z (a * 10 ^ ilog10 999))%Q /\
    (lte (getAmountRangeFilter 999) == inject_Z (b * 10 ^ ilog10 999))%Q /\
    (0 <= a <= 7)%Z /\ (2 <= b <= 12)%Z.
Proof.
  split; [lia | apply (getAmountRangeFilter_multiples_of_unit 999); lia].
Defined.

Lemma getAmountRangeFilter_gte_zero_witness :
  (0 < 123 < 10 ^ 14)%Z /\
  ((gte (getAmountRangeFilter 123) == 0)%Q <-> (4 * 123 < 5 * 10 ^ ilog10 123)%Z).
Proof.
  split; [lia | apply (getAmountRangeFilter_gte_zero 123); lia].
Defined.

Lemma getAmountRangeFilter_within_one_unit_witness :
  ((0 < 999 < 10 ^ 14)%Z /\
   inject_Z 999 * 0.8 - inject_Z (10 ^ ilog10 999) < gte (getAmountRangeFilter 999) /\
   lte (getAmountRangeFilter 999) < inject_Z 999 * 1.2 + inject_Z (10 ^ ilog10 999))%Q.
Proof.
  split; [lia | apply (getAmountRangeFilter_within_one_unit 999); lia].
Defined.

Lemma getAmountRangeFilter_not_positive_witness :
  ((- 10 ^ 14 < - 500 <= 0)%Z /\
   gte (getAmountRangeFilter (- 500)) == inject_Z ((8 * - 500) / 10) /\
   lte (getAmountRangeFilter (- 500)) == inject_Z (- ((- (12 * - 500)) / 10)) /\
   lte (getAmountRangeFilter (- 500)) <= gte (getAmountRangeFilter (- 500)) /\
   ((gte (getAmountRangeFilter (- 500)) <= inject_Z (- 500) /\
     inject_Z (- 500) <= lte (getAmountRangeFilter (- 500))) <-> (- 4 <= - 500)%Z))%Q.
Proof.
  split; [lia | apply (getAmountRangeFilter_not_positive (- 500)); lia].
Defined.

Example getAmountRangeFilter_of_a_debit :
  getAmountRangeFilter (- 500) = {| type := IS_BETWEEN; gte := - 400; lte := - 600 |} /\
  getAmountRangeFilter 0 = {| type := IS_BETWEEN; gte := 0; lte := 0 |}.
Proof. split; vm_compute; reflexivity. Qed.

Lemma displayedRawValues_shows_the_rest_witness :
  In ("Description", "Invoice 42") Samples.rawValue /\
  "Invoice 42" <> "" /\
  In ("Description", "Invoice 42")
     (displayedRawValues Samples.rawValue (Some Samples.csvConfig)).
Proof.
  assert (In ("Description", "Invoice 42") Samples.rawValue) as Hin
    by (vm_compute; tauto).
  assert ("Invoice 42" <> "") as Hne by discriminate.
  split; [exact Hin|]. split; [exact Hne|].
  apply (displayedRawValues_shows_the_rest _ _ _ _ Hin Hne).
  intros config [= <-]. vm_compute. repeat split; discriminate.
Defined.

Lemma unmapped_columns_hide_nothing_witness :
  displayedRawValues Samples.rawValue (Some MoreSamples.unmappedConfig)
  = displayedRawValues Samples.rawValue None.
Proof.
  apply (unmapped_columns_hide_nothing Samples.rawValue MoreSamples.unmappedConfig);
    reflexivity.
Defined.

Example processedAt_of_the_sample_row :
  processedAt (initialValues Samples.row) = "2024-03-01" /\
  amountReceived (initialValues Samples.row) = 123456%Z /\
  searchDateLte Samples.row = "2024-03-01" /\
  splitHead "T" "2024-03-01" = "2024-03-01" /\
  splitHead "T" "" = "".
Proof. repeat split; reflexivity. Qed.

Lemma cache_only_written_on_confirm_success_witness :
  let events :=
    [ SetSelectedContribution (Some Samples.pendingOrder); Click NextButton;
      FormOnSubmit; FormOnFailure; Click BackButton;
      SetSelectedContribution (Some Samples.paidOrder); Click SaveButton;
      UpdateRowsSettled (Some MoreSamples.networkError) ] in
  ~ In FormOnSuccess events /\
  ~ In (UpdateRowsSettled None) events /\
  cache (MoreSamples.run (initialWorld Samples.cache) events) = Samples.cache.
Proof.
  cbv zeta.
  assert (~ In FormOnSuccess
            [ SetSelectedContribution (Some Samples.pendingOrder); Click NextButton;
              FormOnSubmit; FormOnFailure; Click BackButton;
              SetSelectedContribution (Some Samples.paidOrder); Click SaveButton;
              UpdateRowsSettled (Some MoreSamples.networkError) ]) as H
    by (cbn; intuition discriminate).
  assert (~ In (UpdateRowsSettled None)
            [ SetSelectedContribution (Some Samples.pendingOrder); Click NextButton;
              FormOnSubmit; FormOnFailure; Click BackButton;
              SetSelectedContribution (Some Samples.paidOrder); Click SaveButton;
              UpdateRowsSettled (Some MoreSamples.networkError) ]) as H'
    by (cbn; intuition discriminate).
  split; [exact H|]. split; [exact H'|].
  exact (cache_only_written_on_confirm_success
           Samples.row Samples.transactionsImport Samples.i18nGraphqlException
           (initialWorld Samples.cache) _ H H').
Defined.

Lemma requests_are_for_own_row_witness :
  In (UpdateRows "import-1" [ {| update_id := "row-1"; update_order_id := "order-9" |} ])
     (effects MoreSamples.saving) /\
  "import-1" = import_id Samples.transactionsImport /\
  exists orderId,
    [ {| update_id := "row-1"; update_order_id := "order-9" |} ]
    = [ {| update_id := row_id Samples.row; update_order_id := orderId |} ].
Proof.
  assert (In (UpdateRows "import-1"
                [ {| update_id := "row-1"; update_order_id := "order-9" |} ])
             (effects MoreSamples.saving)) as Hin by (vm_compute; tauto).
  split; [exact Hin|].
  exact (requests_are_for_own_row
           Samples.row Samples.transactionsImport Samples.i18nGraphqlException
           MoreSamples.saving _ _
           (reachable_step _ _ _ _ _
              (reachable_step _ _ _ _ _ (reachable_initial _ _ _ Samples.cache)))
           Hin).
Defined.

Lemma no_request_without_save_witness :
  let request :=
    UpdateRows "import-1" [ {| update_id := "row-1"; update_order_id := "order-9" |} ] in
  let events := [ UpdateRowsSettled (Some MoreSamples.networkError); DialogOnOpenChange ] in
  ~ In (Click SaveButton) events /\
  In request (effects (MoreSamples.run MoreSamples.saving events)) /\
  In request (effects MoreSamples.saving).
Proof.
  cbv zeta.
  assert (~ In (Click SaveButton)
            [ UpdateRowsSettled (Some MoreSamples.networkError); DialogOnOpenChange ]) as H
    by (cbn; intros [E | [E | []]]; discriminate E).
  assert (In (UpdateRows "import-1"
                [ {| update_id := "row-1"; update_order_id := "order-9" |} ])
             (effects (MoreSamples.run MoreSamples.saving
                [ UpdateRowsSettled (Some MoreSamples.networkError); DialogOnOpenChange ])))
    as Hin by (vm_compute; tauto).
  split; [exact H|]. split; [exact Hin|].
  exact (no_request_without_save
           Samples.row Samples.transactionsImport Samples.i18nGraphqlException
           MoreSamples.saving _ _ _ H Hin).
Defined.

Lemma toast_only_on_failed_update_witness :
  let events := [ Click SaveButton; UpdateRowsSettled (Some MoreSamples.networkError) ] in
  In (Toast ToastError "Network error")
     (effects (MoreSamples.run Samples.paidSelected events)) /\
  (In (Toast ToastError "Network error") (effects Samples.paidSelected) \/
   exists error,
     In (UpdateRowsSettled (Some error)) events /\
     ToastError = ToastError /\
     "Network error" = Samples.i18nGraphqlException error).
Proof.
  cbv zeta.
  assert (In (Toast ToastError "Network error")
             (effects (MoreSamples.run Samples.paidSelected
                [ Click SaveButton; UpdateRowsSettled (Some MoreSamples.networkError) ])))
    as Hin by (vm_compute; tauto).
  split; [exact Hin|].
  exact (toast_only_on_failed_update
           Samples.row Samples.transactionsImport Samples.i18nGraphqlException
           Samples.paidSelected _ _ _ Hin).
Defined.

Lemma selection_only_changed_by_table_witness :
  let events := [ FormOnSubmit; FormOnFailure; Click BackButton; DialogOnOpenChange ] in
  (forall selected, ~ In (SetSelectedContribution selected) events) /\
  selectedContribution (ui (MoreSamples.run Samples.confirming events))
  = Some Samples.pendingOrder.
Proof.
  cbv zeta.
  assert (forall selected,
            ~ In (SetSelectedContribution selected)
                [ FormOnSubmit; FormOnFailure; Click BackButton; DialogOnOpenChange ]) as H
    by (intros selected; cbn; intros [E | [E | [E | [E | []]]]]; discriminate E).
  split; [exact H|].
  exact (selection_only_changed_by_table
           Samples.row Samples.transactionsImport Samples.i18nGraphqlException
           Samples.confirming _ H).
Defined.

Lemma isSubmitting_only_reset_by_form_failure_witness :
  let events :=
    [ UpdateRowsSettled (Some MoreSamples.networkError);
      SetSelectedContribution (Some Samples.pendingOrder); Click NextButton;
      Click BackButton ] in
  ~ In FormOnFailure events /\
  isSubmitting (ui MoreSamples.saving) = true /\
  isSubmitting (ui (MoreSamples.run MoreSamples.saving events)) = true.
Proof.
  cbv zeta.
  assert (~ In FormOnFailure
            [ UpdateRowsSettled (Some MoreSamples.networkError);
              SetSelectedContribution (Some Samples.pendingOrder); Click NextButton;
              Click BackButton ]) as H
    by (cbn; intros [E | [E | [E | [E | []]]]]; discriminate E).
  assert (isSubmitting (ui MoreSamples.saving) = true) as Hs by reflexivity.
  split; [exact H|]. split; [exact Hs|].
  exact (isSubmitting_only_reset_by_form_failure
           Samples.row Samples.transactionsImport Samples.i18nGraphqlException
           MoreSamples.saving _ H Hs).
Defined.

Lemma back_then_next_restores_witness :
  let browsing := Samples.step Samples.confirming (Click BackButton) in
  isConfirming (ui Samples.confirming) = true /\
  isConfirming (ui browsing) = false /\
  selectedContribution (ui browsing) = selectedContribution (ui Samples.confirming) /\
  cache browsing = cache Samples.confirming /\
  effects browsing = effects Samples.confirming /\
  Samples.step browsing (Click NextButton) = Samples.confirming.
Proof.
  cbv zeta.
  assert (isConfirming (ui Samples.confirming) = true) as Hc by reflexivity.
  split; [exact Hc|].
  exact (back_then_next_restores
           Samples.row Samples.transactionsImport Samples.i18nGraphqlException
           Samples.confirming
           (reachable_step _ _ _ _ _
              (reachable_step _ _ _ _ _ (reachable_initial _ _ _ Samples.cache)))
           Hc).
Defined.

Lemma processed_and_orders_move_together_witness :
  importStats (cache Samples.confirming) !! "import-1" = Some Samples.stats /\
  exists n : nat,
    (n <= 2)%nat /\
    importStats (cache (MoreSamples.run Samples.confirming [FormOnSubmit; FormOnSuccess]))
      !! "import-1" =
      Some {| processed := processed Samples.stats + Z.of_nat n;
              orders := orders Samples.stats + Z.of_nat n;
              otherStats := otherStats Samples.stats |}.
Proof.
  assert (importStats (cache Samples.confirming) !! "import-1" = Some Samples.stats) as H
    by (vm_compute; reflexivity).
  split; [exact H|].
  exact (processed_and_orders_move_together
           Samples.row Samples.transactionsImport Samples.i18nGraphqlException
           Samples.confirming [FormOnSubmit; FormOnSuccess] Samples.stats H).
Defined.

(** With a row that is not cached, the success of the form changes the
    counters of the import only and still closes the dialog. *)
Example confirm_success_with_uncached_row :
  let w :=
    Samples.step
      (Samples.step
         (initialWorld {| rowOrder := ∅; importStats := importStats Samples.cache |})
         (SetSelectedContribution (Some Samples.pendingOrder)))
      (Click NextButton) in
  let final := Samples.step w FormOnSuccess in
  rowOrder (cache final) !! "row-1" = None /\
  importStats (cache final) !! "import-1"
    = Some {| processed := 4; orders := 2; otherStats := otherStats Samples.stats |} /\
  effects final = [OnClose (cache final)].
Proof. vm_compute. repeat split; reflexivity. Qed.

End FurtherSampleRuns.
